(** * runtime_hook.py: the start-up patch of the browser-use sidecar

    A shallow embedding of [Scripts/browser-use-sidecar/runtime_hook.py].
    The script mutates three pieces of interpreter-global state
    ([urllib.request.getproxies], [os.environ], [importlib.resources.files]),
    so Python code is embedded in a small state-and-exception monad [Py]
    over a record [World] of exactly the globals the script reads or
    writes.  Function objects stored in globals are kept as syntax
    ([ProxyFn], [Resolver]) with an interpreter ([call_getproxies],
    [call_files]); closures carry what they captured. *)

From Stdlib Require Import Ascii.
From stdpp Require Import gmap strings list fin_maps.

Open Scope string_scope.

(** ** Python values *)

(** [pathlib.Path] objects, kept as the expression that built them:
    [Path(s)] and [p / s].  The script never inspects a path, it only
    builds one and asks whether it exists. *)
Inductive path : Type :=
| Path (s : string)
| Truediv (p : path) (s : string).

(** The objects the script can meet as [package] argument or as result of
    a resolver. *)
Inductive pyobject : Type :=
| PyStr (s : string)            (* a [str] *)
| PyModule (name : string)      (* a module object *)
| PyPath (p : path)             (* a [pathlib.Path] *)
| PyTraversable (h : string)    (* any other Traversable, opaque *)
| PyNone.

(** Raised exceptions: instances of [Exception], and instances of
    [BaseException] that are not ([KeyboardInterrupt], [SystemExit], ...).
    [except Exception] catches the first kind only. *)
Inductive exn : Type :=
| PyException (cls : string)
| PyBaseException (cls : string).

Definition is_Exception (e : exn) : bool :=
  match e with
  | PyException _ => true
  | PyBaseException _ => false
  end.

(** [isinstance(x, str)] *)
Definition isinstance_str (x : pyobject) : bool :=
  match x with
  | PyStr _ => true
  | _ => false
  end.

(** [s.replace('.', '/')] on the UTF-8 bytes of [s]: both characters are
    ASCII, and no byte of a multi-byte sequence equals ['.'] . *)
Fixpoint replace_dot (s : string) : string :=
  match s with
  | EmptyString => EmptyString
  | String c rest =>
      String (if Ascii.eqb c "."%char then "/"%char else c) (replace_dot rest)
  end.

(** ** Function objects held in globals *)

(** What [urllib.request.getproxies] is bound to. *)
Inductive ProxyFn : Type :=
| SystemGetproxies     (* the library's own function *)
| LambdaEmpty.         (* [lambda: {}] *)

(** What [importlib.resources.files] is bound to: the library's function,
    or a [patched_files] closure over [meipass] and [_original_files]. *)
Inductive Resolver : Type :=
| OriginalFiles
| PatchedFiles (meipass : string) (_original_files : Resolver).

(** ** The interpreter state *)

(** What a call gives back: a value, or a raised exception. *)
Inductive result (A : Type) : Type :=
| Ok (a : A)
| Raise (e : exn).
Arguments Ok {A} a.
Arguments Raise {A} e.

Record World : Type := mkWorld {
  environ : gmap string string;   (* os.environ *)
  getproxies : ProxyFn;           (* urllib.request.getproxies *)
  files : Resolver;               (* importlib.resources.files *)
  sys_frozen : option bool;       (* sys.frozen, when the attribute exists *)
  sys_MEIPASS : option string;    (* sys._MEIPASS, when the attribute exists *)
  fs_exists : path -> result bool
    (* the file system, as [Path.exists] sees it: the answer, or the error
       of [stat] that [exists] does not swallow (an [OSError] for a name
       that is too long or a directory that may not be searched) *)
}.

Definition set_environ (f : gmap string string -> gmap string string)
    (w : World) : World :=
  mkWorld (f (environ w)) (getproxies w) (files w)
          (sys_frozen w) (sys_MEIPASS w) (fs_exists w).

Definition set_getproxies (g : ProxyFn) (w : World) : World :=
  mkWorld (environ w) g (files w)
          (sys_frozen w) (sys_MEIPASS w) (fs_exists w).

Definition set_files (r : Resolver) (w : World) : World :=
  mkWorld (environ w) (getproxies w) r
          (sys_frozen w) (sys_MEIPASS w) (fs_exists w).

(** ** The monad of Python code *)

(** Calls that leave the script: each [Path.exists] test and each
    invocation of the library's [importlib.resources.files]. *)
Inductive event : Type :=
| EvExists (p : path)
| EvOriginal (package : pyobject).

(** A computation returns or raises, leaves a world, and emits the
    events it performed, oldest first. *)
Definition Py (A : Type) : Type := World -> result A * World * list event.

Definition ret {A} (a : A) : Py A := fun w => (Ok a, w, []).

Definition raise {A} (e : exn) : Py A := fun w => (Raise e, w, []).

Definition bind {A B} (c : Py A) (k : A -> Py B) : Py B :=
  fun w =>
    match c w with
    | (Ok a, w1, t1) =>
        match k a w1 with
        | (r, w2, t2) => (r, w2, (t1 ++ t2)%list)
        end
    | (Raise e, w1, t1) => (Raise e, w1, t1)
    end.

Notation "'do' x <- c ; k" := (bind c (fun x => k))
  (at level 10, x name, c at level 100, k at level 200,
   format "'[v' 'do'  x  <-  c ; '/' k ']'").
Notation "'run' c ; k" := (bind c (fun _ => k))
  (at level 10, c at level 100, k at level 200,
   format "'[v' 'run'  c ; '/' k ']'").

(** [try: c  except Exception: h]; inside [h] a bare [raise] re-raises the
    caught exception, so the handler receives it. *)
Definition try_except {A} (c : Py A) (h : exn -> Py A) : Py A :=
  fun w =>
    match c w with
    | (Ok a, w1, t1) => (Ok a, w1, t1)
    | (Raise e, w1, t1) =>
        if is_Exception e then
          match h e w1 with
          | (r, w2, t2) => (r, w2, (t1 ++ t2)%list)
          end
        else (Raise e, w1, t1)
    end.

(** [for x in l: body(x)] *)
Fixpoint for_each {A} (l : list A) (body : A -> Py unit) : Py unit :=
  match l with
  | [] => ret tt
  | x :: rest => run body x; for_each rest body
  end.

(** Projections of a run. *)
Definition outcome {A} (r : result A * World * list event) : result A :=
  fst (fst r).
Definition world_after {A} (r : result A * World * list event) : World :=
  snd (fst r).
Definition trace {A} (r : result A * World * list event) : list event :=
  snd r.

(** ** Primitive operations on the globals *)

(** [os.environ.pop(var, None)]: never raises. *)
Definition environ_pop (var : string) : Py (option string) :=
  fun w => (Ok (environ w !! var), set_environ (delete var) w, []).

(** [urllib.request.getproxies = g] *)
Definition assign_getproxies (g : ProxyFn) : Py unit :=
  fun w => (Ok tt, set_getproxies g w, []).

(** [importlib.resources.files = r] *)
Definition assign_files (r : Resolver) : Py unit :=
  fun w => (Ok tt, set_files r w, []).

(** [importlib.resources.files] read as a value *)
Definition read_files : Py Resolver := fun w => (Ok (files w), w, []).

(** [getattr(sys, 'frozen', False)], as its truth value *)
Definition getattr_frozen : Py bool :=
  fun w => (Ok (default false (sys_frozen w)), w, []).

(** [getattr(sys, '_MEIPASS', None)] *)
Definition getattr_MEIPASS : Py (option string) :=
  fun w => (Ok (sys_MEIPASS w), w, []).

(** [p.exists()]: a boolean, or the exception the test itself raises. *)
Definition path_exists (p : path) : Py bool :=
  fun w => (fs_exists w p, w, [EvExists p]).

(** Truth value of [meipass]: [None] and the empty string are falsy. *)
Definition truthy (meipass : option string) : bool :=
  match meipass with
  | None => false
  | Some "" => false
  | Some _ => true
  end.

(** ** The script *)

(** The list of the [for] loop at lines 20-21. *)
Definition proxy_vars : list string :=
  ["ALL_PROXY"; "all_proxy"; "HTTP_PROXY"; "http_proxy";
   "HTTPS_PROXY"; "https_proxy"; "SOCKS_PROXY"; "socks_proxy"].

Section RuntimeHook.

(** The two library functions the script replaces are not part of the
    repository.  The resolver may read and change the world (it imports
    the package) and may raise; proxy discovery reads the world. *)
Variable original_files : pyobject -> World -> result pyobject * World.
Variable system_getproxies : World -> gmap string string.

(** A call of the library's [importlib.resources.files]. *)
Definition call_original (package : pyobject) : Py pyobject :=
  fun w =>
    match original_files package w with
    | (r, w1) => (r, w1, [EvOriginal package])
    end.

(** Lines 54-61: the [try] statement that ends [patched_files]. *)
Definition fall_back (meipass : string)
    (_original_files : pyobject -> Py pyobject) (package : pyobject)
  : Py pyobject :=
  try_except (_original_files package)
    (fun e =>
       match package with
       | PyStr s => ret (PyPath (Truediv (Path meipass) (replace_dot s)))
       | _ => raise e
       end).

(** Lines 43-61. *)
Definition patched_files (meipass : string)
    (_original_files : pyobject -> Py pyobject) (package : pyobject)
  : Py pyobject :=
  match package with
  | PyStr s =>
      let package_path := replace_dot s in
      let pyinstaller_path := Truediv (Path meipass) package_path in
      do found <- path_exists pyinstaller_path;
      if found then ret (PyPath pyinstaller_path)
      else fall_back meipass _original_files package
  | _ => fall_back meipass _original_files package
  end.

(** Calling whatever [importlib.resources.files] is bound to. *)
Fixpoint call_files (r : Resolver) : pyobject -> Py pyobject :=
  match r with
  | OriginalFiles => call_original
  | PatchedFiles meipass saved => patched_files meipass (call_files saved)
  end.

(** Calling whatever [urllib.request.getproxies] is bound to. *)
Definition call_getproxies (g : ProxyFn) (w : World) : gmap string string :=
  match g with
  | SystemGetproxies => system_getproxies w
  | LambdaEmpty => ∅
  end.

(** Lines 27-63. *)
Definition _fix_importlib_resources : Py unit :=
  do frozen <- getattr_frozen;
  if negb frozen then ret tt
  else
    do meipass <- getattr_MEIPASS;
    match meipass with
    | None | Some "" => ret tt
    | Some m =>
        do _original_files <- read_files;
        assign_files (PatchedFiles m _original_files)
    end.

(** The module body, lines 17-65. *)
Definition runtime_hook : Py unit :=
  run assign_getproxies LambdaEmpty;
  run for_each proxy_vars (fun var => run environ_pop var; ret tt);
  _fix_importlib_resources.

End RuntimeHook.

(** The world the module body leaves behind. *)
Definition after_hook (w : World) : World := world_after (runtime_hook w).

(** The packages the library's resolver was invoked on, in order. *)
Fixpoint original_calls (t : list event) : list pyobject :=
  match t with
  | [] => []
  | EvOriginal package :: rest => package :: original_calls rest
  | EvExists _ :: rest => original_calls rest
  end.

(** Two runs a caller cannot tell apart: same result or exception, same
    world afterwards, same invocations of the library's resolver. *)
Definition same_behaviour {A} (r1 r2 : result A * World * list event) : Prop :=
  outcome r1 = outcome r2 /\
  world_after r1 = world_after r2 /\
  original_calls (trace r1) = original_calls (trace r2).

(** The three globals the script assigns. *)
Definition same_globals (w1 w2 : World) : Prop :=
  environ w1 = environ w2 /\
  getproxies w1 = getproxies w2 /\
  files w1 = files w2.

#[global] Instance path_eq_dec : EqDecision path.
Proof. solve_decision. Defined.

(** ** A concrete process, for examples *)

Module Demo.

Definition root : string := "/tmp/_MEI4242".

(** Only the prompt templates were extracted. *)
Definition disk (p : path) : result bool :=
  Ok (bool_decide
        (p = Truediv (Path root) "browser_use/agent/system_prompts")).

(** The same disk, on a file system that refuses a relative path of more
    than 255 bytes with [OSError] (ENAMETOOLONG). *)
Definition disk_name_max (p : path) : result bool :=
  match p with
  | Truediv _ rel =>
      if Nat.ltb 255 (String.length rel)
      then Raise (PyException "OSError")
      else disk p
  | Path _ => disk p
  end.

(** A package name of 300 characters. *)
Definition long_name : string :=
  String.concat "" (replicate 30 "abcdefghij").

(** A resolver that knows one package and imports nothing else. *)
Definition resolver (package : pyobject) (w : World)
  : result pyobject * World :=
  match package with
  | PyStr "json" => (Ok (PyTraversable "json"), w)
  | PyModule "json" => (Ok (PyTraversable "json"), w)
  | PyStr _ | PyModule _ => (Raise (PyException "ModuleNotFoundError"), w)
  | _ => (Raise (PyException "TypeError"), w)
  end.

(** A resolver interrupted while it imports the package. *)
Definition interrupted (package : pyobject) (w : World)
  : result pyobject * World :=
  (Raise (PyBaseException "KeyboardInterrupt"), w).

(** A resolver whose import of the package exports a proxy setting. *)
Definition exporting (package : pyobject) (w : World)
  : result pyobject * World :=
  (Ok (PyTraversable "pkg"),
   set_environ (insert "HTTP_PROXY" "http://proxy.corp:3128") w).

(** A resolver whose import of the package writes a byte-code cache: it
    changes the file system and none of the three globals. *)
Definition caching (package : pyobject) (w : World)
  : result pyobject * World :=
  (Raise (PyException "ModuleNotFoundError"),
   mkWorld (environ w) (getproxies w) (files w)
           (sys_frozen w) (sys_MEIPASS w)
           (fun p => if bool_decide (p = Path "__pycache__") then Ok true
                     else fs_exists w p)).

Definition proxies (w : World) : gmap string string :=
  match environ w !! "http_proxy" with
  | Some v => {[ "http" := v ]}
  | None => ∅
  end.

Definition env0 : gmap string string :=
  <["http_proxy" := "socks5://127.0.0.1:1080"]>
    (<["ALL_PROXY" := "socks5://127.0.0.1:1080"]>
       (<["HOME" := "/Users/me"]> ∅)).

(** The bundled executable at start-up. *)
Definition bundled : World :=
  mkWorld env0 SystemGetproxies OriginalFiles
          (Some true) (Some root) disk.

(** The same script under a plain interpreter. *)
Definition plain : World :=
  mkWorld env0 SystemGetproxies OriginalFiles None None disk.

(** The bundled executable on the file system with the name limit. *)
Definition bundled_name_max : World :=
  mkWorld env0 SystemGetproxies OriginalFiles
          (Some true) (Some root) disk_name_max.

End Demo.

(** * Properties *)

(** ** Running the module body *)

Lemma replace_dot_example :
  replace_dot "browser_use.agent.system_prompts"
  = "browser_use/agent/system_prompts".
Proof. reflexivity. Qed.

Lemma replace_dot_length (s : string) :
  String.length (replace_dot s) = String.length s.
Proof. induction s as [|c s IH]; simpl; [reflexivity | now rewrite IH]. Qed.

Lemma lookup_pop_list (l : list string) (env : gmap string string) (k : string) :
  foldl (fun e var => delete var e) env l !! k
  = if bool_decide (k ∈ l) then None else env !! k.
Proof.
  revert env. induction l as [|x l IH]; intros env; cbn [foldl].
  - case_bool_decide as Hin; [|reflexivity]. now apply elem_of_nil in Hin.
  - rewrite IH, lookup_delete.
    destruct (decide (x = k)) as [->|Hne].
    + rewrite (bool_decide_eq_true_2 (k ∈ k :: l)) by apply list_elem_of_here.
      now destruct (bool_decide (k ∈ l)).
    + destruct (decide (k ∈ l)) as [Hin|Hnin].
      * rewrite (bool_decide_eq_true_2 (k ∈ l)) by exact Hin.
        rewrite (bool_decide_eq_true_2 (k ∈ x :: l)); [reflexivity|].
        now apply list_elem_of_further.
      * rewrite (bool_decide_eq_false_2 (k ∈ l)) by exact Hnin.
        rewrite (bool_decide_eq_false_2 (k ∈ x :: l)); [reflexivity|].
        intros Hin. apply elem_of_cons in Hin as [Heq|Hin]; congruence.
Qed.

Lemma for_each_pop_run (l : list string) (w : World) :
  for_each l (fun var => run environ_pop var; ret tt) w
  = (Ok tt, set_environ (fun e => foldl (fun e var => delete var e) e l) w, []).
Proof.
  revert w. induction l as [|x l IH]; intros w.
  - destruct w; reflexivity.
  - simpl. unfold bind at 1. simpl. rewrite IH. destruct w; reflexivity.
Qed.

Lemma fix_importlib_resources_run (w : World) :
  _fix_importlib_resources w
  = (Ok tt,
     if default false (sys_frozen w) && truthy (sys_MEIPASS w)
     then set_files (PatchedFiles (default "" (sys_MEIPASS w)) (files w)) w
     else w,
     []).
Proof.
  unfold _fix_importlib_resources, bind, getattr_frozen, getattr_MEIPASS,
    read_files, assign_files, ret.
  destruct w as [env g r [[|]|] [[|c m]|] fs]; reflexivity.
Qed.

Lemma runtime_hook_run (w : World) :
  runtime_hook w
  = (Ok tt,
     let w1 := set_environ
                 (fun e => foldl (fun e var => delete var e) e proxy_vars)
                 (set_getproxies LambdaEmpty w) in
     if default false (sys_frozen w) && truthy (sys_MEIPASS w)
     then set_files (PatchedFiles (default "" (sys_MEIPASS w)) (files w)) w1
     else w1,
     []).
Proof.
  unfold runtime_hook. unfold bind at 1. unfold assign_getproxies.
  unfold bind. rewrite for_each_pop_run, fix_importlib_resources_run.
  destruct w as [env g r fr mp fs]; reflexivity.
Qed.

Lemma after_hook_eq (w : World) :
  after_hook w
  = let w1 := set_environ
                (fun e => foldl (fun e var => delete var e) e proxy_vars)
                (set_getproxies LambdaEmpty w) in
    if default false (sys_frozen w) && truthy (sys_MEIPASS w)
    then set_files (PatchedFiles (default "" (sys_MEIPASS w)) (files w)) w1
    else w1.
Proof. unfold after_hook. now rewrite runtime_hook_run. Qed.

Lemma files_after_hook (w : World) :
  files (after_hook w)
  = if default false (sys_frozen w) && truthy (sys_MEIPASS w)
    then PatchedFiles (default "" (sys_MEIPASS w)) (files w)
    else files w.
Proof.
  rewrite after_hook_eq. cbv zeta.
  now destruct (default false (sys_frozen w) && truthy (sys_MEIPASS w)).
Qed.

Lemma files_after_hook_bundled (w : World) (m : string) :
  sys_frozen w = Some true -> sys_MEIPASS w = Some m -> m <> "" ->
  files (after_hook w) = PatchedFiles m (files w).
Proof.
  intros Hf Hm Hne. rewrite files_after_hook, Hf, Hm. simpl.
  destruct m; [contradiction | reflexivity].
Qed.

Lemma environ_after_hook (w : World) :
  environ (after_hook w)
  = foldl (fun e var => delete var e) (environ w) proxy_vars.
Proof.
  rewrite after_hook_eq. cbv zeta.
  now destruct (default false (sys_frozen w) && truthy (sys_MEIPASS w)).
Qed.

Lemma getproxies_after_hook (w : World) :
  getproxies (after_hook w) = LambdaEmpty.
Proof.
  rewrite after_hook_eq. cbv zeta.
  now destruct (default false (sys_frozen w) && truthy (sys_MEIPASS w)).
Qed.

Lemma flags_after_hook (w : World) :
  sys_frozen (after_hook w) = sys_frozen w /\
  sys_MEIPASS (after_hook w) = sys_MEIPASS w /\
  fs_exists (after_hook w) = fs_exists w.
Proof.
  rewrite after_hook_eq. cbv zeta.
  now destruct (default false (sys_frozen w) && truthy (sys_MEIPASS w)).
Qed.

(** ** The patched resolver, branch by branch *)

Section PatchedResolver.

Variable original_files : pyobject -> World -> result pyobject * World.

Implicit Types (m s : string) (f : pyobject -> Py pyobject)
  (package : pyobject) (w : World) (r : Resolver).

Lemma patched_files_hit m f s w :
  fs_exists w (Truediv (Path m) (replace_dot s)) = Ok true ->
  patched_files m f (PyStr s) w
  = (Ok (PyPath (Truediv (Path m) (replace_dot s))), w,
     [EvExists (Truediv (Path m) (replace_dot s))]).
Proof.
  intros Hex. unfold patched_files, bind, path_exists. cbv zeta.
  now rewrite Hex.
Qed.

Lemma patched_files_miss m f s w :
  fs_exists w (Truediv (Path m) (replace_dot s)) = Ok false ->
  patched_files m f (PyStr s) w
  = match fall_back m f (PyStr s) w with
    | (res, w1, t) =>
        (res, w1, EvExists (Truediv (Path m) (replace_dot s)) :: t)
    end.
Proof.
  intros Hex. unfold patched_files, bind, path_exists. cbv zeta.
  rewrite Hex. now destruct (fall_back m f (PyStr s) w) as [[res w1] t].
Qed.

Lemma patched_files_test_raises m f s w e :
  fs_exists w (Truediv (Path m) (replace_dot s)) = Raise e ->
  patched_files m f (PyStr s) w
  = (Raise e, w, [EvExists (Truediv (Path m) (replace_dot s))]).
Proof.
  intros Hex. unfold patched_files, bind, path_exists. cbv zeta.
  now rewrite Hex.
Qed.

Lemma patched_files_not_str m f package :
  isinstance_str package = false ->
  patched_files m f package = fall_back m f package.
Proof. now destruct package. Qed.

Lemma fall_back_ok m f package w v w1 t :
  f package w = (Ok v, w1, t) ->
  fall_back m f package w = (Ok v, w1, t).
Proof. intros H. unfold fall_back, try_except. now rewrite H. Qed.

Lemma fall_back_str_raise m f s w e w1 t :
  f (PyStr s) w = (Raise e, w1, t) ->
  is_Exception e = true ->
  fall_back m f (PyStr s) w
  = (Ok (PyPath (Truediv (Path m) (replace_dot s))), w1, t).
Proof.
  intros H He. unfold fall_back, try_except. rewrite H, He.
  unfold ret. now rewrite app_nil_r.
Qed.

Lemma fall_back_base_exception m f package w e w1 t :
  f package w = (Raise e, w1, t) ->
  is_Exception e = false ->
  fall_back m f package w = (Raise e, w1, t).
Proof. intros H He. unfold fall_back, try_except. now rewrite H, He. Qed.

Lemma fall_back_not_str m f package w :
  isinstance_str package = false ->
  fall_back m f package w = f package w.
Proof.
  intros Hns. unfold fall_back, try_except.
  destruct (f package w) as [[[v|e] w1] t]; [reflexivity|].
  destruct (is_Exception e); [|reflexivity].
  destruct package; try discriminate Hns;
    unfold raise; now rewrite app_nil_r.
Qed.

Lemma call_patched_not_str m r package w :
  isinstance_str package = false ->
  call_files original_files (PatchedFiles m r) package w
  = call_files original_files r package w.
Proof.
  intros Hns. cbn [call_files].
  rewrite patched_files_not_str by exact Hns.
  now apply fall_back_not_str.
Qed.

(** C1, as amended: in a bundled process whose extraction root is [m],
    when the existence test answers that [m/a/b] is absent and the saved
    resolver raises an instance of [Exception] on the name [a.b], the
    installed resolver returns the path [m/a/b] all the same and raises
    nothing; once the saved resolver has raised, no existence test
    follows. *)
Theorem patched_raise_gives_unchecked_path
    (w : World) (m s : string) (w0 w1 : World) (e : exn) (t : list event) :
  sys_frozen w = Some true ->
  sys_MEIPASS w = Some m ->
  m <> "" ->
  fs_exists w0 (Truediv (Path m) (replace_dot s)) = Ok false ->
  call_files original_files (files w) (PyStr s) w0 = (Raise e, w1, t) ->
  is_Exception e = true ->
  call_files original_files (files (after_hook w)) (PyStr s) w0
  = (Ok (PyPath (Truediv (Path m) (replace_dot s))), w1,
     EvExists (Truediv (Path m) (replace_dot s)) :: t).
Proof.
  intros Hf Hm Hne Hex Horig He.
  rewrite (files_after_hook_bundled w m Hf Hm Hne). cbn [call_files].
  rewrite patched_files_miss by exact Hex.
  now rewrite (fall_back_str_raise _ _ _ _ _ _ _ Horig He).
Qed.

(** C2: in a bundled process whose extraction root is [m], when
    [m/a/b] exists the installed resolver returns exactly that path for
    the name [a.b]; the only call that leaves the script is the
    existence test, so the saved resolver is not invoked. *)
Theorem patched_existing_path_bypasses_original
    (w : World) (m s : string) (w0 : World) :
  sys_frozen w = Some true ->
  sys_MEIPASS w = Some m ->
  m <> "" ->
  fs_exists w0 (Truediv (Path m) (replace_dot s)) = Ok true ->
  call_files original_files (files (after_hook w)) (PyStr s) w0
  = (Ok (PyPath (Truediv (Path m) (replace_dot s))), w0,
     [EvExists (Truediv (Path m) (replace_dot s))])
  /\ original_calls
       (trace (call_files original_files (files (after_hook w)) (PyStr s) w0))
     = [].
Proof.
  intros Hf Hm Hne Hex.
  rewrite (files_after_hook_bundled w m Hf Hm Hne). cbn [call_files].
  rewrite patched_files_hit by exact Hex. split; reflexivity.
Qed.

(** C6: in a bundled process whose extraction root is [m], when
    [m/a/b] does not exist and the saved resolver returns a value for
    the name [a.b], the installed resolver returns that same value and
    leaves the same world. *)
Theorem patched_agrees_with_original_on_success
    (w : World) (m s : string) (w0 w1 : World) (v : pyobject)
    (t : list event) :
  sys_frozen w = Some true ->
  sys_MEIPASS w = Some m ->
  m <> "" ->
  fs_exists w0 (Truediv (Path m) (replace_dot s)) = Ok false ->
  call_files original_files (files w) (PyStr s) w0 = (Ok v, w1, t) ->
  call_files original_files (files (after_hook w)) (PyStr s) w0
  = (Ok v, w1, EvExists (Truediv (Path m) (replace_dot s)) :: t).
Proof.
  intros Hf Hm Hne Hex Horig.
  rewrite (files_after_hook_bundled w m Hf Hm Hne). cbn [call_files].
  rewrite patched_files_miss by exact Hex.
  now rewrite (fall_back_ok _ _ _ _ _ _ _ Horig).
Qed.

(** C8: on an argument that is not a [str], a patched resolver is the
    resolver it saved: same result or exception, same world, same
    events, hence no existence test of its own; in particular an
    exception of the saved resolver reaches the caller. *)
Theorem patched_non_str_delegates
    (m : string) (r : Resolver) (package : pyobject) (w0 : World) :
  isinstance_str package = false ->
  call_files original_files (PatchedFiles m r) package w0
  = call_files original_files r package w0
  /\ forall e,
      outcome (call_files original_files r package w0) = Raise e ->
      outcome (call_files original_files (PatchedFiles m r) package w0)
      = Raise e.
Proof.
  intros Hns. pose proof (call_patched_not_str m r package w0 Hns) as Heq.
  split; [exact Heq | intros e He; now rewrite Heq].
Qed.

(** *** What a call does to the world *)

Lemma fall_back_world m f package w :
  world_after (fall_back m f package w) = world_after (f package w).
Proof.
  unfold fall_back, try_except.
  destruct (f package w) as [[[v|e] w1] t]; [reflexivity|].
  destruct (is_Exception e); [|reflexivity].
  destruct package; reflexivity.
Qed.

Lemma patched_files_world m f package w :
  world_after (patched_files m f package w) = w \/
  world_after (patched_files m f package w) = world_after (f package w).
Proof.
  destruct package as [s| | | |];
    try (right; apply fall_back_world).
  destruct (fs_exists w (Truediv (Path m) (replace_dot s)))
    as [[|]|e] eqn:Hex.
  - left. now rewrite patched_files_hit.
  - right. rewrite patched_files_miss by exact Hex.
    rewrite <- (fall_back_world m f (PyStr s) w).
    now destruct (fall_back m f (PyStr s) w) as [[res w1] t].
  - left. now rewrite (patched_files_test_raises m f s w e Hex).
Qed.

Lemma same_globals_refl w : same_globals w w.
Proof. now repeat split. Qed.

Lemma call_files_preserves_globals r :
  (forall p w, same_globals (snd (original_files p w)) w) ->
  forall package w,
    same_globals (world_after (call_files original_files r package w)) w.
Proof.
  intros Horig. induction r as [|m saved IH]; intros package w.
  - cbn [call_files]. unfold call_original, world_after.
    specialize (Horig package w).
    now destruct (original_files package w) as [res w1].
  - cbn [call_files].
    destruct (patched_files_world m (call_files original_files saved)
                package w) as [-> | ->].
    + apply same_globals_refl.
    + apply IH.
Qed.

(** C10, as amended: provided the library's own resolver leaves
    [os.environ], [urllib.request.getproxies] and
    [importlib.resources.files] as they are, so does every call of a
    patched resolver, whatever the argument and whichever branch is
    taken. *)
Theorem patched_call_preserves_globals
    (m : string) (r : Resolver) (package : pyobject) (w0 : World) :
  (forall p w, same_globals (snd (original_files p w)) w) ->
  same_globals
    (world_after (call_files original_files (PatchedFiles m r) package w0))
    w0.
Proof. intros Horig. now apply call_files_preserves_globals. Qed.

End PatchedResolver.

(** ** The proxy settings *)

Lemma outcome_runtime_hook (w : World) : outcome (runtime_hook w) = Ok tt.
Proof. now rewrite runtime_hook_run. Qed.

Lemma lookup_environ_after_hook (w : World) (var : string) :
  environ (after_hook w) !! var
  = if bool_decide (var ∈ proxy_vars) then None else environ w !! var.
Proof. rewrite environ_after_hook. apply lookup_pop_list. Qed.

Lemma proxy_vars_absent_after_hook (w : World) :
  Forall (fun var => environ (after_hook w) !! var = None) proxy_vars.
Proof.
  apply Forall_forall. intros var Hin.
  rewrite lookup_environ_after_hook.
  now rewrite bool_decide_eq_true_2.
Qed.

(** C4: the module body returns normally from every environment, the
    eight proxy variables are then absent from [os.environ], and every
    variable keeps its value unless it is one of the eight. *)
Theorem proxy_vars_removed_others_kept (w : World) :
  outcome (runtime_hook w) = Ok tt /\
  Forall (fun var => environ (after_hook w) !! var = None)
    ["ALL_PROXY"; "all_proxy"; "HTTP_PROXY"; "http_proxy";
     "HTTPS_PROXY"; "https_proxy"; "SOCKS_PROXY"; "socks_proxy"] /\
  forall var,
    environ (after_hook w) !! var
    = if bool_decide (var ∈ proxy_vars) then None else environ w !! var.
Proof.
  split; [apply outcome_runtime_hook|].
  split; [apply proxy_vars_absent_after_hook|].
  apply lookup_environ_after_hook.
Qed.

(** C9: in every run of the module body, bundled or not,
    [urllib.request.getproxies] becomes [lambda: {}] and the eight proxy
    variables are removed; [importlib.resources.files] is rebound, to a
    closure over the extraction root and the previous binding, exactly
    when [sys.frozen] and [sys._MEIPASS] are both truthy. *)
Theorem proxy_patch_unconditional_files_patch_gated (w : World) :
  getproxies (after_hook w) = LambdaEmpty /\
  Forall (fun var => environ (after_hook w) !! var = None)
    ["ALL_PROXY"; "all_proxy"; "HTTP_PROXY"; "http_proxy";
     "HTTPS_PROXY"; "https_proxy"; "SOCKS_PROXY"; "socks_proxy"] /\
  files (after_hook w)
  = (if default false (sys_frozen w) && truthy (sys_MEIPASS w)
     then PatchedFiles (default "" (sys_MEIPASS w)) (files w)
     else files w).
Proof.
  split; [apply getproxies_after_hook|].
  split; [apply proxy_vars_absent_after_hook | apply files_after_hook].
Qed.

Section Installed.

Variable original_files : pyobject -> World -> result pyobject * World.
Variable system_getproxies : World -> gmap string string.

(** C3: whatever the world was when the module body ran, and whatever
    it is when proxy discovery is called afterwards, the function then
    bound to [urllib.request.getproxies] returns the empty mapping. *)
Theorem getproxies_empty_after_hook (w w_call : World) :
  call_getproxies system_getproxies (getproxies (after_hook w)) w_call = ∅.
Proof. now rewrite getproxies_after_hook. Qed.

(** C5: when [sys.frozen] is falsy or [sys._MEIPASS] is missing or
    empty, the module body returns normally and leaves
    [importlib.resources.files] bound to what it was, so resolving any
    package behaves as before. *)
Theorem files_untouched_outside_bundle (w : World) :
  default false (sys_frozen w) = false \/ truthy (sys_MEIPASS w) = false ->
  outcome (runtime_hook w) = Ok tt /\
  files (after_hook w) = files w /\
  forall package w_call,
    call_files original_files (files (after_hook w)) package w_call
    = call_files original_files (files w) package w_call.
Proof.
  intros Hgate.
  assert (Hfiles : files (after_hook w) = files w).
  { rewrite files_after_hook.
    destruct Hgate as [-> | ->]; [reflexivity|].
    now rewrite andb_false_r. }
  split; [apply outcome_runtime_hook|].
  split; [exact Hfiles|]. intros package w_call. now rewrite Hfiles.
Qed.

End Installed.

(** ** Running the module body again *)

Lemma same_behaviour_refl {A} (x : result A * World * list event) :
  same_behaviour x x.
Proof. now repeat split. Qed.

Lemma same_behaviour_trans {A} (x y z : result A * World * list event) :
  same_behaviour x y -> same_behaviour y z -> same_behaviour x z.
Proof.
  intros (Ho1 & Hw1 & Ht1) (Ho2 & Hw2 & Ht2).
  repeat split; congruence.
Qed.

Lemma pop_list_idempotent (l : list string) (env : gmap string string) :
  foldl (fun e var => delete var e)
    (foldl (fun e var => delete var e) env l) l
  = foldl (fun e var => delete var e) env l.
Proof.
  apply map_eq. intros k. rewrite !lookup_pop_list.
  now destruct (bool_decide (k ∈ l)).
Qed.

Lemma iter_hook_flags (n : nat) (w : World) :
  sys_frozen (Nat.iter n after_hook w) = sys_frozen w /\
  sys_MEIPASS (Nat.iter n after_hook w) = sys_MEIPASS w.
Proof.
  induction n as [|n [IHf IHm]]; [now split|]. rewrite Nat.iter_succ.
  destruct (flags_after_hook (Nat.iter n after_hook w)) as (Hf & Hm & _).
  split; congruence.
Qed.

Lemma iter_hook_environ (n : nat) (w : World) :
  environ (Nat.iter n after_hook (after_hook w)) = environ (after_hook w).
Proof.
  induction n as [|n IH]; [reflexivity|]. rewrite Nat.iter_succ.
  rewrite environ_after_hook, IH, environ_after_hook.
  apply pop_list_idempotent.
Qed.

Lemma iter_hook_getproxies (n : nat) (w : World) :
  getproxies (Nat.iter n after_hook (after_hook w))
  = getproxies (after_hook w).
Proof.
  destruct n as [|n]; [reflexivity|]. rewrite Nat.iter_succ.
  now rewrite !getproxies_after_hook.
Qed.

Lemma iter_hook_files (n : nat) (w : World) :
  files (Nat.iter n after_hook w)
  = if default false (sys_frozen w) && truthy (sys_MEIPASS w)
    then Nat.iter n (PatchedFiles (default "" (sys_MEIPASS w))) (files w)
    else files w.
Proof.
  induction n as [|n IH].
  - change (Nat.iter 0 ?f ?x) with x.
    now destruct (default false (sys_frozen w) && truthy (sys_MEIPASS w)).
  - rewrite !Nat.iter_succ, files_after_hook.
    destruct (iter_hook_flags n w) as [-> ->]. rewrite IH.
    now destruct (default false (sys_frozen w) && truthy (sys_MEIPASS w)).
Qed.

Section Idempotence.

Variable original_files : pyobject -> World -> result pyobject * World.
Variable system_getproxies : World -> gmap string string.

(** A closure over a closure with the same extraction root behaves as
    the inner one: the outer existence test repeats the inner one, and
    an inner fallback path is returned as it is. *)
Lemma double_patch (m : string) (r : Resolver) (package : pyobject)
    (w : World) :
  same_behaviour
    (call_files original_files (PatchedFiles m (PatchedFiles m r)) package w)
    (call_files original_files (PatchedFiles m r) package w).
Proof.
  destruct (isinstance_str package) eqn:Hstr.
  - destruct package as [s| | | |]; try discriminate Hstr.
    cbn [call_files].
    destruct (fs_exists w (Truediv (Path m) (replace_dot s)))
      as [[|]|e0] eqn:Hex;
      [ rewrite !patched_files_hit by exact Hex; apply same_behaviour_refl
      |
      | rewrite !(patched_files_test_raises m _ s w e0 Hex);
        apply same_behaviour_refl ].
    + destruct (call_files original_files r (PyStr s) w)
        as [[[v|e] w1] t] eqn:Hr.
      * pose proof (patched_files_miss m (call_files original_files r)
                      s w Hex) as Hin.
        rewrite (fall_back_ok _ _ _ _ _ _ _ Hr) in Hin.
        rewrite (patched_files_miss m (patched_files m _) s w Hex).
        rewrite (fall_back_ok _ _ _ _ _ _ _ Hin), Hin.
        now repeat split.
      * pose proof (patched_files_miss m (call_files original_files r)
                      s w Hex) as Hin.
        rewrite (patched_files_miss m (patched_files m _) s w Hex).
        destruct (is_Exception e) eqn:He.
        -- rewrite (fall_back_str_raise _ _ _ _ _ _ _ Hr He) in Hin.
           rewrite (fall_back_ok _ _ _ _ _ _ _ Hin), Hin.
           now repeat split.
        -- rewrite (fall_back_base_exception _ _ _ _ _ _ _ Hr He) in Hin.
           rewrite (fall_back_base_exception _ _ _ _ _ _ _ Hin He), Hin.
           now repeat split.
  - rewrite (call_patched_not_str original_files m (PatchedFiles m r)
               package w Hstr).
    apply same_behaviour_refl.
Qed.

Lemma nested_patch (m : string) (n : nat) :
  forall (r : Resolver) (package : pyobject) (w : World),
    same_behaviour
      (call_files original_files
         (Nat.iter n (PatchedFiles m) (PatchedFiles m r)) package w)
      (call_files original_files (PatchedFiles m r) package w).
Proof.
  induction n as [|n IH]; intros r package w.
  - apply same_behaviour_refl.
  - rewrite Nat.iter_succ_r.
    eapply same_behaviour_trans; [apply IH | apply double_patch].
Qed.

(** C7: after the first run of the module body, any number [n] of
    further runs changes nothing a caller can see: [os.environ] is the
    same mapping, proxy discovery is the same function with the same
    answers, and resolving any package gives the same result or
    exception, the same world and the same invocations of the library's
    resolver. *)
Theorem hook_idempotent (n : nat) (w : World) :
  environ (Nat.iter n after_hook (after_hook w)) = environ (after_hook w) /\
  getproxies (Nat.iter n after_hook (after_hook w))
  = getproxies (after_hook w) /\
  (forall w_call,
      call_getproxies system_getproxies
        (getproxies (Nat.iter n after_hook (after_hook w))) w_call
      = call_getproxies system_getproxies
          (getproxies (after_hook w)) w_call) /\
  (forall package w_call,
      same_behaviour
        (call_files original_files
           (files (Nat.iter n after_hook (after_hook w))) package w_call)
        (call_files original_files
           (files (after_hook w)) package w_call)).
Proof.
  split; [apply iter_hook_environ|].
  split; [apply iter_hook_getproxies|].
  split; [intros w_call; now rewrite iter_hook_getproxies|].
  intros package w_call. rewrite iter_hook_files.
  destruct (flags_after_hook w) as (-> & -> & _).
  rewrite (files_after_hook w).
  destruct (default false (sys_frozen w) && truthy (sys_MEIPASS w)).
  - apply nested_patch.
  - apply same_behaviour_refl.
Qed.

End Idempotence.

(** ** The concrete process *)

Example demo_environ :
  environ (after_hook Demo.bundled) = <["HOME" := "/Users/me"]> ∅.
Proof. vm_compute. reflexivity. Qed.

Example demo_proxies_before :
  call_getproxies Demo.proxies (getproxies Demo.bundled) Demo.bundled
  = {[ "http" := "socks5://127.0.0.1:1080" ]}.
Proof. vm_compute. reflexivity. Qed.

Example demo_files_bundled :
  files (after_hook Demo.bundled) = PatchedFiles Demo.root OriginalFiles.
Proof. reflexivity. Qed.

Example demo_files_plain : files (after_hook Demo.plain) = OriginalFiles.
Proof. reflexivity. Qed.

(** [except Exception] lets a [KeyboardInterrupt] through, also for a
    [str] argument. *)
Example demo_interrupt_propagates :
  call_files Demo.interrupted (files (after_hook Demo.bundled))
    (PyStr "browser_use.missing") (after_hook Demo.bundled)
  = (Raise (PyBaseException "KeyboardInterrupt"), after_hook Demo.bundled,
     [EvExists (Truediv (Path Demo.root) "browser_use/missing");
      EvOriginal (PyStr "browser_use.missing")]).
Proof. reflexivity. Qed.

(** After a second run the existence test is made twice; the result, the
    world and the invocations of the library's resolver are those of one
    run. *)
Example demo_second_run :
  call_files Demo.resolver (files (after_hook (after_hook Demo.bundled)))
    (PyStr "json") (after_hook Demo.bundled)
  = (Ok (PyTraversable "json"), after_hook Demo.bundled,
     [EvExists (Truediv (Path Demo.root) "json");
      EvExists (Truediv (Path Demo.root) "json");
      EvOriginal (PyStr "json")]).
Proof. reflexivity. Qed.

(** ** The theorems on the concrete process *)

Lemma patched_raise_gives_unchecked_path_witness :
  fs_exists (after_hook Demo.bundled)
    (Truediv (Path Demo.root) (replace_dot "browser_use.missing"))
  = Ok false /\
  call_files Demo.resolver (files Demo.bundled)
    (PyStr "browser_use.missing") (after_hook Demo.bundled)
  = (Raise (PyException "ModuleNotFoundError"), after_hook Demo.bundled,
     [EvOriginal (PyStr "browser_use.missing")]) /\
  call_files Demo.resolver (files (after_hook Demo.bundled))
    (PyStr "browser_use.missing") (after_hook Demo.bundled)
  = (Ok (PyPath (Truediv (Path Demo.root) "browser_use/missing")),
     after_hook Demo.bundled,
     [EvExists (Truediv (Path Demo.root) "browser_use/missing");
      EvOriginal (PyStr "browser_use.missing")]).
Proof.
  split; [reflexivity|]. split; [reflexivity|].
  apply (patched_raise_gives_unchecked_path Demo.resolver Demo.bundled
           Demo.root "browser_use.missing"
           (after_hook Demo.bundled) (after_hook Demo.bundled)
           (PyException "ModuleNotFoundError")
           [EvOriginal (PyStr "browser_use.missing")]);
    [reflexivity | reflexivity | discriminate
    | reflexivity | reflexivity | reflexivity].
Defined.

Lemma patched_existing_path_bypasses_original_witness :
  fs_exists (after_hook Demo.bundled)
    (Truediv (Path Demo.root)
       (replace_dot "browser_use.agent.system_prompts")) = Ok true /\
  call_files Demo.resolver (files (after_hook Demo.bundled))
    (PyStr "browser_use.agent.system_prompts") (after_hook Demo.bundled)
  = (Ok (PyPath (Truediv (Path Demo.root)
                   "browser_use/agent/system_prompts")),
     after_hook Demo.bundled,
     [EvExists (Truediv (Path Demo.root)
                  "browser_use/agent/system_prompts")]).
Proof.
  split; [reflexivity|].
  apply (patched_existing_path_bypasses_original Demo.resolver Demo.bundled
           Demo.root "browser_use.agent.system_prompts"
           (after_hook Demo.bundled));
    [reflexivity | reflexivity | discriminate | reflexivity].
Defined.

Lemma patched_agrees_with_original_on_success_witness :
  call_files Demo.resolver (files Demo.bundled)
    (PyStr "json") (after_hook Demo.bundled)
  = (Ok (PyTraversable "json"), after_hook Demo.bundled,
     [EvOriginal (PyStr "json")]) /\
  call_files Demo.resolver (files (after_hook Demo.bundled))
    (PyStr "json") (after_hook Demo.bundled)
  = (Ok (PyTraversable "json"), after_hook Demo.bundled,
     [EvExists (Truediv (Path Demo.root) "json");
      EvOriginal (PyStr "json")]).
Proof.
  split; [reflexivity|].
  apply (patched_agrees_with_original_on_success Demo.resolver Demo.bundled
           Demo.root "json"
           (after_hook Demo.bundled) (after_hook Demo.bundled)
           (PyTraversable "json") [EvOriginal (PyStr "json")]);
    [reflexivity | reflexivity | discriminate | reflexivity | reflexivity].
Defined.

Lemma patched_non_str_delegates_witness :
  call_files Demo.resolver (PatchedFiles Demo.root OriginalFiles)
    (PyModule "browser_use") (after_hook Demo.bundled)
  = call_files Demo.resolver OriginalFiles
      (PyModule "browser_use") (after_hook Demo.bundled)
  /\ outcome (call_files Demo.resolver (PatchedFiles Demo.root OriginalFiles)
                (PyModule "browser_use") (after_hook Demo.bundled))
     = Raise (PyException "ModuleNotFoundError").
Proof.
  destruct (patched_non_str_delegates Demo.resolver Demo.root OriginalFiles
              (PyModule "browser_use") (after_hook Demo.bundled) eq_refl)
    as [Heq Hraise].
  split; [exact Heq | apply Hraise; reflexivity].
Defined.

Lemma files_untouched_outside_bundle_witness :
  outcome (runtime_hook Demo.plain) = Ok tt /\
  files (after_hook Demo.plain) = files Demo.plain /\
  forall package w_call,
    call_files Demo.resolver (files (after_hook Demo.plain)) package w_call
    = call_files Demo.resolver (files Demo.plain) package w_call.
Proof.
  apply (files_untouched_outside_bundle Demo.resolver Demo.plain).
  left. reflexivity.
Defined.

Lemma caching_preserves_globals (p : pyobject) (w : World) :
  same_globals (snd (Demo.caching p w)) w.
Proof. now repeat split. Defined.

Lemma patched_call_preserves_globals_witness :
  fs_exists
    (world_after
       (call_files Demo.caching (PatchedFiles Demo.root OriginalFiles)
          (PyStr "browser_use.missing") (after_hook Demo.bundled)))
    (Path "__pycache__") = Ok true /\
  same_globals
    (world_after
       (call_files Demo.caching (PatchedFiles Demo.root OriginalFiles)
          (PyStr "browser_use.missing") (after_hook Demo.bundled)))
    (after_hook Demo.bundled).
Proof.
  split; [reflexivity|].
  apply (patched_call_preserves_globals Demo.caching Demo.root OriginalFiles
           (PyStr "browser_use.missing") (after_hook Demo.bundled)).
  exact caching_preserves_globals.
Defined.

(** ** Limits of the resolver's guarantees *)

(** C1 as stated asks for the path whenever the saved resolver raises;
    a [KeyboardInterrupt] raised by it goes through [except Exception]
    and reaches the caller. *)
Lemma patched_raise_any_exception_counterexample :
  ~ (forall (original_files : pyobject -> World -> result pyobject * World)
       (w : World) (m s : string) (w0 w1 : World) (e : exn)
       (t : list event),
        sys_frozen w = Some true ->
        sys_MEIPASS w = Some m ->
        m <> "" ->
        fs_exists w0 (Truediv (Path m) (replace_dot s)) = Ok false ->
        call_files original_files (files w) (PyStr s) w0 = (Raise e, w1, t) ->
        outcome (call_files original_files (files (after_hook w)) (PyStr s) w0)
        = Ok (PyPath (Truediv (Path m) (replace_dot s)))).
Proof.
  intros H.
  specialize (H Demo.interrupted Demo.bundled Demo.root "browser_use.missing"
                (after_hook Demo.bundled) (after_hook Demo.bundled)
                (PyBaseException "KeyboardInterrupt")
                [EvOriginal (PyStr "browser_use.missing")]
                eq_refl eq_refl).
  assert (Hne : Demo.root <> "") by discriminate.
  specialize (H Hne eq_refl eq_refl). discriminate H.
Qed.

(** C10 as stated asks that no call changes the three globals; a call
    that reaches a resolver whose import sets [HTTP_PROXY] leaves that
    variable in [os.environ]. *)
Lemma patched_call_mutates_counterexample :
  ~ (forall (original_files : pyobject -> World -> result pyobject * World)
       (m : string) (r : Resolver) (package : pyobject) (w0 : World),
        same_globals
          (world_after
             (call_files original_files (PatchedFiles m r) package w0))
          w0).
Proof.
  intros H.
  destruct (H Demo.exporting Demo.root OriginalFiles
              (PyStr "browser_use.missing") (after_hook Demo.bundled))
    as [Henv _].
  apply (f_equal (fun env : gmap string string => env !! "HTTP_PROXY")) in Henv.
  vm_compute in Henv. discriminate Henv.
Qed.

(** * Further properties of the script *)

(** ** [str.replace('.', '/')], line 47 *)

Lemma replace_dot_app (a b : string) :
  replace_dot (a +:+ b) = replace_dot a +:+ replace_dot b.
Proof. induction a as [|c a IH]; simpl; [reflexivity | now rewrite IH]. Qed.

(** X1: a dotted name [a.b] becomes [a/b], the parts being rewritten in the
    same way. *)
Theorem replace_dot_dotted (a b : string) :
  replace_dot (a +:+ "." +:+ b) = replace_dot a +:+ "/" +:+ replace_dot b.
Proof. now rewrite !replace_dot_app. Qed.

(** X2: no dot is left in the relative path. *)
Theorem replace_dot_leaves_no_dot (s : string) :
  Forall (fun c => c <> "."%char) (String.list_ascii_of_string (replace_dot s)).
Proof.
  induction s as [|c s IH]; simpl; constructor; [|exact IH].
  destruct (Ascii.eqb c ".") eqn:Hc; [discriminate|].
  now apply Ascii.eqb_neq.
Qed.

(** X3: exactly the names without a dot are their own relative path. *)
Theorem replace_dot_fixes_dot_free (s : string) :
  replace_dot s = s <->
  Forall (fun c => c <> "."%char) (String.list_ascii_of_string s).
Proof.
  induction s as [|c s IH]; simpl.
  - split; [constructor | reflexivity].
  - destruct (Ascii.eqb c ".") eqn:Hc.
    + apply Ascii.eqb_eq in Hc. subst c. split.
      * intros H. discriminate H.
      * intros H. inversion H as [|? ? Hne _]. now contradict Hne.
    + apply Ascii.eqb_neq in Hc. split.
      * intros H. injection H as H. constructor; [exact Hc | now apply IH].
      * intros H. inversion H as [|? ? _ Hs]. f_equal. now apply IH.
Qed.

Lemma replace_dot_idempotent (s : string) :
  replace_dot (replace_dot s) = replace_dot s.
Proof.
  induction s as [|c s IH]; simpl; [reflexivity|]. rewrite IH. f_equal.
  destruct (Ascii.eqb c ".") eqn:Hc; [reflexivity | now rewrite Hc].
Qed.

(** ** [patched_files], lines 43-61 *)

Section PatchedResolverMore.

Variable original_files : pyobject -> World -> result pyobject * World.

Implicit Types (m s : string) (f : pyobject -> Py pyobject)
  (package : pyobject) (w : World) (r : Resolver).

Lemma fall_back_trace m f package w :
  trace (fall_back m f package w) = trace (f package w).
Proof.
  unfold fall_back, try_except.
  destruct (f package w) as [[[v|e] w1] t]; [reflexivity|].
  destruct (is_Exception e); [|reflexivity].
  destruct package; unfold trace, ret, raise; simpl; apply app_nil_r.
Qed.

Lemma fall_back_outcome_str m f s w :
  outcome (fall_back m f (PyStr s) w)
  = match outcome (f (PyStr s) w) with
    | Ok v => Ok v
    | Raise e =>
        if is_Exception e
        then Ok (PyPath (Truediv (Path m) (replace_dot s)))
        else Raise e
    end.
Proof.
  unfold fall_back, try_except.
  destruct (f (PyStr s) w) as [[[v|e] w1] t]; [reflexivity|].
  unfold outcome; simpl. now destruct (is_Exception e).
Qed.

Lemma patched_files_miss_parts m f s w :
  fs_exists w (Truediv (Path m) (replace_dot s)) = Ok false ->
  outcome (patched_files m f (PyStr s) w)
  = outcome (fall_back m f (PyStr s) w) /\
  world_after (patched_files m f (PyStr s) w)
  = world_after (f (PyStr s) w) /\
  trace (patched_files m f (PyStr s) w)
  = EvExists (Truediv (Path m) (replace_dot s)) :: trace (f (PyStr s) w).
Proof.
  intros Hex. rewrite patched_files_miss by exact Hex.
  rewrite <- (fall_back_world m f (PyStr s) w).
  rewrite <- (fall_back_trace m f (PyStr s) w).
  now destruct (fall_back m f (PyStr s) w) as [[res w1] t].
Qed.

Lemma call_patched_str_trace m r s w :
  trace (call_files original_files (PatchedFiles m r) (PyStr s) w)
  = EvExists (Truediv (Path m) (replace_dot s))
    :: match fs_exists w (Truediv (Path m) (replace_dot s)) with
       | Ok false => trace (call_files original_files r (PyStr s) w)
       | _ => []
       end.
Proof.
  cbn [call_files].
  destruct (fs_exists w (Truediv (Path m) (replace_dot s)))
    as [[|]|e] eqn:Hex.
  - now rewrite patched_files_hit by exact Hex.
  - now destruct (patched_files_miss_parts m (call_files original_files r)
                    s w Hex) as (_ & _ & ->).
  - now rewrite (patched_files_test_raises m _ s w e Hex).
Qed.

(** X4: for a [str] argument, an exception that comes out of a patched
    resolver is either not an instance of [Exception], or it is the
    exception raised by the resolver's own existence test, which line 51
    makes outside the [try]; an [Exception] of the saved resolver never
    reaches the caller. *)
Theorem patched_str_exception_origin
    (m : string) (r : Resolver) (s : string) (w : World) (e : exn) :
  outcome (call_files original_files (PatchedFiles m r) (PyStr s) w)
  = Raise e ->
  is_Exception e = false \/
  fs_exists w (Truediv (Path m) (replace_dot s)) = Raise e.
Proof.
  cbn [call_files].
  destruct (fs_exists w (Truediv (Path m) (replace_dot s)))
    as [[|]|e0] eqn:Hex.
  - rewrite patched_files_hit by exact Hex. discriminate.
  - destruct (patched_files_miss_parts m (call_files original_files r) s w Hex)
      as (-> & _ & _).
    rewrite fall_back_outcome_str.
    destruct (outcome (call_files original_files r (PyStr s) w)) as [v|e'];
      [discriminate|].
    destruct (is_Exception e') eqn:He; [discriminate|].
    intros H. injection H as <-. now left.
  - rewrite (patched_files_test_raises m _ s w e0 Hex).
    intros H. injection H as <-. now right.
Qed.

(** X5: when the path is absent and the saved resolver raises a
    [BaseException] that is not an [Exception] ([KeyboardInterrupt],
    [SystemExit]), the patched resolver raises it as well, also for a
    [str] argument: no fallback path is substituted. *)
Theorem patched_base_exception_propagates
    (m : string) (r : Resolver) (s : string) (w w1 : World) (e : exn)
    (t : list event) :
  fs_exists w (Truediv (Path m) (replace_dot s)) = Ok false ->
  call_files original_files r (PyStr s) w = (Raise e, w1, t) ->
  is_Exception e = false ->
  call_files original_files (PatchedFiles m r) (PyStr s) w
  = (Raise e, w1, EvExists (Truediv (Path m) (replace_dot s)) :: t).
Proof.
  intros Hex Hr He. cbn [call_files].
  rewrite patched_files_miss by exact Hex.
  now rewrite (fall_back_base_exception _ _ _ _ _ _ _ Hr He).
Qed.

(** X6: a call of a patched resolver on a [str] makes exactly one
    existence test of its own, before anything else; when the test
    answers that the path is absent, the world and the remaining events
    are those of the saved resolver; when it answers that the path
    exists, or raises, the world is untouched and nothing else happens. *)
Theorem patched_str_effects
    (m : string) (r : Resolver) (s : string) (w : World) :
  world_after (call_files original_files (PatchedFiles m r) (PyStr s) w)
  = match fs_exists w (Truediv (Path m) (replace_dot s)) with
    | Ok false => world_after (call_files original_files r (PyStr s) w)
    | _ => w
    end /\
  trace (call_files original_files (PatchedFiles m r) (PyStr s) w)
  = EvExists (Truediv (Path m) (replace_dot s))
    :: match fs_exists w (Truediv (Path m) (replace_dot s)) with
       | Ok false => trace (call_files original_files r (PyStr s) w)
       | _ => []
       end.
Proof.
  split; [|apply call_patched_str_trace]. cbn [call_files].
  destruct (fs_exists w (Truediv (Path m) (replace_dot s)))
    as [[|]|e] eqn:Hex.
  - now rewrite patched_files_hit by exact Hex.
  - now destruct (patched_files_miss_parts m (call_files original_files r)
                    s w Hex) as (_ & -> & _).
  - now rewrite (patched_files_test_raises m _ s w e Hex).
Qed.

(** X7: what a patched resolver returns for a [str] is the extraction
    path or the value the saved resolver returned; it invents nothing
    else. *)
Theorem patched_str_result_origin
    (m : string) (r : Resolver) (s : string) (w : World) (v : pyobject) :
  outcome (call_files original_files (PatchedFiles m r) (PyStr s) w) = Ok v ->
  v = PyPath (Truediv (Path m) (replace_dot s)) \/
  outcome (call_files original_files r (PyStr s) w) = Ok v.
Proof.
  cbn [call_files].
  destruct (fs_exists w (Truediv (Path m) (replace_dot s)))
    as [[|]|e0] eqn:Hex.
  - rewrite patched_files_hit by exact Hex.
    intros H. injection H as <-. now left.
  - destruct (patched_files_miss_parts m (call_files original_files r) s w Hex)
      as (-> & _ & _).
    rewrite fall_back_outcome_str.
    destruct (outcome (call_files original_files r (PyStr s) w)) as [v'|e].
    + intros H. now right.
    + destruct (is_Exception e); [|discriminate].
      intros H. injection H as <-. now left.
  - rewrite (patched_files_test_raises m _ s w e0 Hex). discriminate.
Qed.

(** X8: whatever is bound to [importlib.resources.files], one call
    invokes the library's resolver at most once, and then on the very
    argument it was given. *)
Theorem library_resolver_called_at_most_once
    (r : Resolver) (package : pyobject) (w : World) :
  original_calls (trace (call_files original_files r package w)) = [] \/
  original_calls (trace (call_files original_files r package w)) = [package].
Proof.
  induction r as [|m saved IH].
  - right. cbn [call_files]. unfold call_original.
    now destruct (original_files package w) as [res w1].
  - destruct (isinstance_str package) eqn:Hstr.
    + destruct package as [s| | | |]; try discriminate Hstr.
      rewrite call_patched_str_trace.
      destruct (fs_exists w (Truediv (Path m) (replace_dot s))) as [[|]|e];
        [now left | exact IH | now left].
    + now rewrite (call_patched_not_str original_files m saved package w Hstr).
Qed.

(** X9: the names [a.b] and [a/b] are looked up at the same place: when
    the path exists, resolving the name with its dots already replaced
    gives the same run as resolving the dotted name. *)
Theorem patched_slash_name_same_hit
    (m : string) (r : Resolver) (s : string) (w : World) :
  fs_exists w (Truediv (Path m) (replace_dot s)) = Ok true ->
  call_files original_files (PatchedFiles m r) (PyStr (replace_dot s)) w
  = call_files original_files (PatchedFiles m r) (PyStr s) w.
Proof.
  intros Hex. cbn [call_files].
  rewrite (patched_files_hit m _ s w Hex).
  rewrite <- (replace_dot_idempotent s) in Hex.
  rewrite (patched_files_hit m _ (replace_dot s) w Hex).
  now rewrite replace_dot_idempotent.
Qed.

(** X10: with two closures over different roots, the outer root is tested
    first, and when neither path exists and the innermost saved resolver
    raises an [Exception], the path returned is under the inner root: the
    inner closure has already replaced the exception. *)
Theorem nested_roots_fallback_is_inner
    (m_outer m_inner : string) (r : Resolver) (s : string) (w w1 : World)
    (e : exn) (t : list event) :
  fs_exists w (Truediv (Path m_outer) (replace_dot s)) = Ok false ->
  fs_exists w (Truediv (Path m_inner) (replace_dot s)) = Ok false ->
  call_files original_files r (PyStr s) w = (Raise e, w1, t) ->
  is_Exception e = true ->
  call_files original_files
    (PatchedFiles m_outer (PatchedFiles m_inner r)) (PyStr s) w
  = (Ok (PyPath (Truediv (Path m_inner) (replace_dot s))), w1,
     EvExists (Truediv (Path m_outer) (replace_dot s))
     :: EvExists (Truediv (Path m_inner) (replace_dot s)) :: t).
Proof.
  intros Hout Hin Hr He.
  assert (Hinner :
    call_files original_files (PatchedFiles m_inner r) (PyStr s) w
    = (Ok (PyPath (Truediv (Path m_inner) (replace_dot s))), w1,
       EvExists (Truediv (Path m_inner) (replace_dot s)) :: t)).
  { cbn [call_files]. rewrite patched_files_miss by exact Hin.
    now rewrite (fall_back_str_raise _ _ _ _ _ _ _ Hr He). }
  change (call_files original_files
            (PatchedFiles m_outer (PatchedFiles m_inner r)) (PyStr s) w)
    with (patched_files m_outer
            (call_files original_files (PatchedFiles m_inner r)) (PyStr s) w).
  rewrite patched_files_miss by exact Hout.
  now rewrite (fall_back_ok _ _ _ _ _ _ _ Hinner).
Qed.

(** X11: [n] closures over the same root make [n] existence tests of the
    same absent path, one after the other, before the innermost saved
    resolver is reached. *)
Theorem nested_miss_repeats_existence_test
    (m : string) (n : nat) (r : Resolver) (s : string) (w : World) :
  fs_exists w (Truediv (Path m) (replace_dot s)) = Ok false ->
  trace (call_files original_files
           (Nat.iter n (PatchedFiles m) r) (PyStr s) w)
  = (replicate n (EvExists (Truediv (Path m) (replace_dot s)))
     ++ trace (call_files original_files r (PyStr s) w))%list.
Proof.
  intros Hex. induction n as [|n IH]; [reflexivity|].
  rewrite Nat.iter_succ.
  rewrite call_patched_str_trace, Hex, IH. reflexivity.
Qed.

(** X18: when the existence test itself raises, the patched resolver
    raises that exception, instance of [Exception] or not: the test of
    line 51 is outside the [try] of line 55, so no fallback path is
    returned, the saved resolver is not called and the world is
    untouched. *)
Theorem patched_test_exception_reaches_caller
    (m : string) (r : Resolver) (s : string) (w : World) (e : exn) :
  fs_exists w (Truediv (Path m) (replace_dot s)) = Raise e ->
  call_files original_files (PatchedFiles m r) (PyStr s) w
  = (Raise e, w, [EvExists (Truediv (Path m) (replace_dot s))]).
Proof. intros Hex. cbn [call_files]. now apply patched_files_test_raises. Qed.

(** X19: under a closure over another root the inner existence test runs
    inside the outer [try]: when the outer test answers that its path is
    absent and the inner test raises an [Exception], the outer closure
    returns the path under its own root and the saved resolver is not
    called. *)
Theorem nested_inner_test_exception_is_caught
    (m_outer m_inner : string) (r : Resolver) (s : string) (w : World)
    (e : exn) :
  fs_exists w (Truediv (Path m_outer) (replace_dot s)) = Ok false ->
  fs_exists w (Truediv (Path m_inner) (replace_dot s)) = Raise e ->
  is_Exception e = true ->
  call_files original_files
    (PatchedFiles m_outer (PatchedFiles m_inner r)) (PyStr s) w
  = (Ok (PyPath (Truediv (Path m_outer) (replace_dot s))), w,
     [EvExists (Truediv (Path m_outer) (replace_dot s));
      EvExists (Truediv (Path m_inner) (replace_dot s))]).
Proof.
  intros Hout Hin He.
  change (call_files original_files
            (PatchedFiles m_outer (PatchedFiles m_inner r)) (PyStr s) w)
    with (patched_files m_outer
            (patched_files m_inner (call_files original_files r))
            (PyStr s) w).
  rewrite patched_files_miss by exact Hout.
  now rewrite (fall_back_str_raise m_outer _ s w e w _
                 (patched_files_test_raises m_inner _ s w e Hin) He).
Qed.

End PatchedResolverMore.

(** ** The module body, lines 17-65 *)

Lemma pop_list_insert_in (l : list string) (env : gmap string string)
    (var v : string) :
  var ∈ l ->
  foldl (fun e x => delete x e) (<[var := v]> env) l
  = foldl (fun e x => delete x e) env l.
Proof.
  intros Hin. apply map_eq. intros k. rewrite !lookup_pop_list.
  destruct (decide (k ∈ l)) as [Hk|Hk].
  - now rewrite !bool_decide_eq_true_2.
  - rewrite !bool_decide_eq_false_2 by exact Hk.
    apply lookup_insert_ne. intros ->. contradiction.
Qed.

Lemma pop_list_insert_notin (l : list string) (env : gmap string string)
    (var v : string) :
  var ∉ l ->
  foldl (fun e x => delete x e) (<[var := v]> env) l
  = <[var := v]> (foldl (fun e x => delete x e) env l).
Proof.
  intros Hnin. apply map_eq. intros k. rewrite lookup_pop_list.
  destruct (decide (k = var)) as [->|Hne].
  - rewrite bool_decide_eq_false_2 by exact Hnin.
    now rewrite !lookup_insert_eq.
  - rewrite !lookup_insert_ne by congruence. now rewrite lookup_pop_list.
Qed.

Lemma after_hook_insert (w : World) (var v : string) :
  after_hook (set_environ (insert var v) w)
  = set_environ
      (fun _ => foldl (fun e x => delete x e)
                  (<[var := v]> (environ w)) proxy_vars)
      (after_hook w).
Proof.
  rewrite !after_hook_eq. destruct w as [env g r fr mp fs].
  cbv zeta.
  unfold set_files, set_environ, set_getproxies;
    cbn [environ getproxies files sys_frozen sys_MEIPASS fs_exists].
  destruct (default false fr && truthy mp); reflexivity.
Qed.

Lemma set_environ_same (w : World) (env : gmap string string) :
  environ w = env -> set_environ (fun _ => env) w = w.
Proof. intros <-. now destruct w. Qed.

(** X12: installing the patches touches nothing outside the script: the
    module body tests no path and calls no resolver, and it leaves
    [sys.frozen], [sys._MEIPASS] and the file system as they are. *)
Theorem hook_installs_lazily (w : World) :
  trace (runtime_hook w) = [] /\
  sys_frozen (after_hook w) = sys_frozen w /\
  sys_MEIPASS (after_hook w) = sys_MEIPASS w /\
  fs_exists (after_hook w) = fs_exists w.
Proof.
  split; [now rewrite runtime_hook_run | apply flags_after_hook].
Qed.

(** X13: an environment in which none of the eight variables is set comes
    out of the module body as the same mapping. *)
Theorem environ_unchanged_without_proxy_vars (w : World) :
  Forall (fun var => environ w !! var = None) proxy_vars ->
  environ (after_hook w) = environ w.
Proof.
  intros Habs. apply map_eq. intros k. rewrite lookup_environ_after_hook.
  destruct (decide (k ∈ proxy_vars)) as [Hin|Hnin].
  - rewrite bool_decide_eq_true_2 by exact Hin.
    symmetry. revert k Hin. now apply Forall_forall.
  - now rewrite bool_decide_eq_false_2.
Qed.

(** X14: the module body only removes: the environment afterwards is a
    sub-mapping of the one before (no variable is added or given another
    value), and its names are those set before minus the eight. *)
Theorem environ_after_hook_is_restriction (w : World) :
  environ (after_hook w) ⊆ environ w /\
  dom (environ (after_hook w))
  = dom (environ w) ∖ list_to_set proxy_vars.
Proof.
  split.
  - apply map_subseteq_spec. intros k v.
    rewrite lookup_environ_after_hook.
    now destruct (bool_decide (k ∈ proxy_vars)).
  - apply set_eq. intros k.
    rewrite elem_of_difference, elem_of_list_to_set, !elem_of_dom.
    rewrite lookup_environ_after_hook.
    destruct (decide (k ∈ proxy_vars)) as [Hin|Hnin].
    + rewrite bool_decide_eq_true_2 by exact Hin. split.
      * intros [v Hv]. discriminate Hv.
      * intros [_ Hk]. contradiction.
    + rewrite bool_decide_eq_false_2 by exact Hnin. tauto.
Qed.

(** X15: the value a proxy variable had before the run leaves no mark: a
    process started with one of the eight variables set ends in the same
    world as one started without that assignment. *)
Theorem hook_ignores_proxy_values (w : World) (var v : string) :
  var ∈ proxy_vars ->
  after_hook (set_environ (insert var v) w) = after_hook w.
Proof.
  intros Hin. rewrite after_hook_insert.
  rewrite (pop_list_insert_in _ _ _ _ Hin).
  apply set_environ_same. apply environ_after_hook.
Qed.

(** X16: assigning any other variable commutes with the module body:
    setting it before the run or after the run gives the same world. *)
Theorem hook_commutes_with_other_variables (w : World) (var v : string) :
  var ∉ proxy_vars ->
  after_hook (set_environ (insert var v) w)
  = set_environ (insert var v) (after_hook w).
Proof.
  intros Hnin. rewrite after_hook_insert.
  rewrite (pop_list_insert_notin _ _ _ _ Hnin).
  rewrite <- environ_after_hook. now destruct (after_hook w).
Qed.

(** X17: the module body does not recognise an earlier patch: in a bundled
    process with extraction root [m], [n] runs leave
    [importlib.resources.files] bound to [n] closures over [m], stacked
    on the binding found at the start. *)
Theorem runs_stack_closures (n : nat) (w : World) (m : string) :
  sys_frozen w = Some true ->
  sys_MEIPASS w = Some m ->
  m <> "" ->
  files (Nat.iter n after_hook w) = Nat.iter n (PatchedFiles m) (files w).
Proof.
  intros Hf Hm Hne. rewrite iter_hook_files, Hf, Hm.
  destruct m as [|c m]; [contradiction | reflexivity].
Qed.

(** ** The further properties on the concrete process *)

Lemma patched_str_exception_origin_witness :
  outcome (call_files Demo.resolver (PatchedFiles Demo.root OriginalFiles)
             (PyStr Demo.long_name) (after_hook Demo.bundled_name_max))
  = Raise (PyException "OSError") /\
  (is_Exception (PyException "OSError") = false \/
   fs_exists (after_hook Demo.bundled_name_max)
     (Truediv (Path Demo.root) (replace_dot Demo.long_name))
   = Raise (PyException "OSError")).
Proof.
  split; [vm_compute; reflexivity|].
  apply (patched_str_exception_origin Demo.resolver Demo.root
           OriginalFiles Demo.long_name (after_hook Demo.bundled_name_max)).
  vm_compute. reflexivity.
Defined.

Lemma patched_test_exception_reaches_caller_witness :
  call_files Demo.resolver (PatchedFiles Demo.root OriginalFiles)
    (PyStr Demo.long_name) (after_hook Demo.bundled_name_max)
  = (Raise (PyException "OSError"), after_hook Demo.bundled_name_max,
     [EvExists (Truediv (Path Demo.root) (replace_dot Demo.long_name))]).
Proof.
  apply (patched_test_exception_reaches_caller Demo.resolver Demo.root
           OriginalFiles Demo.long_name (after_hook Demo.bundled_name_max)
           (PyException "OSError")).
  vm_compute. reflexivity.
Defined.

Lemma nested_inner_test_exception_is_caught_witness :
  call_files Demo.resolver
    (PatchedFiles "/tmp/_MEI7"
       (PatchedFiles Demo.root OriginalFiles))
    (PyStr Demo.long_name)
    (mkWorld Demo.env0 LambdaEmpty OriginalFiles (Some true) (Some Demo.root)
       (fun p => match p with
                 | Truediv (Path "/tmp/_MEI7") _ => Ok false
                 | _ => Demo.disk_name_max p
                 end))
  = (Ok (PyPath (Truediv (Path "/tmp/_MEI7") (replace_dot Demo.long_name))),
     mkWorld Demo.env0 LambdaEmpty OriginalFiles (Some true) (Some Demo.root)
       (fun p => match p with
                 | Truediv (Path "/tmp/_MEI7") _ => Ok false
                 | _ => Demo.disk_name_max p
                 end),
     [EvExists (Truediv (Path "/tmp/_MEI7") (replace_dot Demo.long_name));
      EvExists (Truediv (Path Demo.root) (replace_dot Demo.long_name))]).
Proof.
  apply (nested_inner_test_exception_is_caught Demo.resolver
           "/tmp/_MEI7" Demo.root OriginalFiles Demo.long_name _
           (PyException "OSError"));
    vm_compute; reflexivity.
Defined.

Lemma patched_base_exception_propagates_witness :
  call_files Demo.interrupted (PatchedFiles Demo.root OriginalFiles)
    (PyStr "browser_use.missing") (after_hook Demo.bundled)
  = (Raise (PyBaseException "KeyboardInterrupt"), after_hook Demo.bundled,
     [EvExists (Truediv (Path Demo.root) "browser_use/missing");
      EvOriginal (PyStr "browser_use.missing")]).
Proof.
  apply (patched_base_exception_propagates Demo.interrupted Demo.root
           OriginalFiles "browser_use.missing"
           (after_hook Demo.bundled) (after_hook Demo.bundled)
           (PyBaseException "KeyboardInterrupt")
           [EvOriginal (PyStr "browser_use.missing")]);
    reflexivity.
Defined.

Lemma patched_str_result_origin_witness :
  PyTraversable "json" = PyPath (Truediv (Path Demo.root) (replace_dot "json"))
  \/ outcome (call_files Demo.resolver OriginalFiles (PyStr "json")
                (after_hook Demo.bundled))
     = Ok (PyTraversable "json").
Proof.
  apply (patched_str_result_origin Demo.resolver Demo.root OriginalFiles
           "json" (after_hook Demo.bundled)).
  reflexivity.
Defined.

Lemma patched_slash_name_same_hit_witness :
  call_files Demo.resolver (PatchedFiles Demo.root OriginalFiles)
    (PyStr "browser_use/agent/system_prompts") (after_hook Demo.bundled)
  = call_files Demo.resolver (PatchedFiles Demo.root OriginalFiles)
      (PyStr "browser_use.agent.system_prompts") (after_hook Demo.bundled).
Proof.
  apply (patched_slash_name_same_hit Demo.resolver Demo.root OriginalFiles
           "browser_use.agent.system_prompts" (after_hook Demo.bundled)).
  reflexivity.
Defined.

Lemma nested_roots_fallback_is_inner_witness :
  call_files Demo.resolver
    (PatchedFiles "/tmp/_MEI7" (PatchedFiles Demo.root OriginalFiles))
    (PyStr "browser_use.missing") (after_hook Demo.bundled)
  = (Ok (PyPath (Truediv (Path Demo.root) "browser_use/missing")),
     after_hook Demo.bundled,
     [EvExists (Truediv (Path "/tmp/_MEI7") "browser_use/missing");
      EvExists (Truediv (Path Demo.root) "browser_use/missing");
      EvOriginal (PyStr "browser_use.missing")]).
Proof.
  apply (nested_roots_fallback_is_inner Demo.resolver "/tmp/_MEI7" Demo.root
           OriginalFiles "browser_use.missing"
           (after_hook Demo.bundled) (after_hook Demo.bundled)
           (PyException "ModuleNotFoundError")
           [EvOriginal (PyStr "browser_use.missing")]);
    reflexivity.
Defined.

Lemma nested_miss_repeats_existence_test_witness :
  trace (call_files Demo.resolver
           (Nat.iter 3 (PatchedFiles Demo.root) OriginalFiles)
           (PyStr "json") (after_hook Demo.bundled))
  = [EvExists (Truediv (Path Demo.root) "json");
     EvExists (Truediv (Path Demo.root) "json");
     EvExists (Truediv (Path Demo.root) "json");
     EvOriginal (PyStr "json")].
Proof.
  apply (nested_miss_repeats_existence_test Demo.resolver Demo.root 3
           OriginalFiles "json" (after_hook Demo.bundled)).
  reflexivity.
Defined.

Lemma environ_unchanged_without_proxy_vars_witness :
  environ (after_hook (after_hook Demo.bundled))
  = environ (after_hook Demo.bundled).
Proof.
  apply (environ_unchanged_without_proxy_vars (after_hook Demo.bundled)).
  repeat constructor.
Defined.

Lemma hook_ignores_proxy_values_witness :
  after_hook
    (set_environ (insert "HTTPS_PROXY" "http://10.0.0.1:3128") Demo.plain)
  = after_hook Demo.plain.
Proof.
  apply (hook_ignores_proxy_values Demo.plain
           "HTTPS_PROXY" "http://10.0.0.1:3128").
  repeat (first [apply list_elem_of_here | apply list_elem_of_further]).
Defined.

Lemma hook_commutes_with_other_variables_witness :
  after_hook (set_environ (insert "NO_PROXY" "localhost") Demo.plain)
  = set_environ (insert "NO_PROXY" "localhost") (after_hook Demo.plain).
Proof.
  apply (hook_commutes_with_other_variables Demo.plain
           "NO_PROXY" "localhost").
  apply (bool_decide_unpack _). vm_compute. exact I.
Defined.

Lemma runs_stack_closures_witness :
  files (Nat.iter 2 after_hook Demo.bundled)
  = PatchedFiles Demo.root (PatchedFiles Demo.root OriginalFiles).
Proof.
  apply (runs_stack_closures 2 Demo.bundled Demo.root);
    [reflexivity | reflexivity | discriminate].
Defined.
